(** * Lektrico charging station sensors

    A shallow embedding of
    [homeassistant/components/lektrico/sensor.py]: the entity descriptions
    with their [get_native_value] class methods, the [SENSORS] registry,
    [async_setup_entry], and the [LektricoSensor] entity with its
    constructor and its [native_value] property, followed by the properties
    the specification states about them and by further properties of the
    code: its behaviour on missing and empty fields, the failure modes of
    setup, identity across devices, and what refreshes preserve. *)

From Stdlib Require Import ZArith SpecFloat Ascii.
From stdpp Require Import base option list strings gmap.

Local Open Scope Z_scope.

(** ** Python values and outcomes *)

(** The exceptions the modelled code can raise. *)
Inductive exc : Type :=
  | AttributeError
  | TypeError
  | ValueError
  | OverflowError
  | KeyError.

(** The outcome of evaluating a Python expression: a value, or a raised
    exception that propagates to the caller. *)
Inductive result (A : Type) : Type :=
  | Return (a : A)
  | Raise (e : exc).
Arguments Return {A} a.
Arguments Raise {A} e.

#[export] Instance result_ret : MRet result := @Return.
#[export] Instance result_bind : MBind result := λ A B f r,
  match r with
  | Return a => f a
  | Raise e => Raise e
  end.
#[export] Instance result_fmap : FMap result := λ A B f r,
  match r with
  | Return a => Return (f a)
  | Raise e => Raise e
  end.

#[export] Instance exc_eq_dec : EqDecision exc.
Proof. solve_decision. Defined.

(** A Python [float] is an IEEE 754 binary64 number. *)
Definition prec : Z := 53.
Definition emax : Z := 1024.

(** The scalars a sensor reports: [None], an [int], a [float] or a [str]. *)
Inductive value : Type :=
  | VNone
  | VInt (z : Z)
  | VFloat (f : spec_float)
  | VStr (s : string).

Inductive pytype : Type := NoneType | int_type | float_type | str_type.

#[export] Instance pytype_eq_dec : EqDecision pytype.
Proof. solve_decision. Defined.

Definition type (v : value) : pytype :=
  match v with
  | VNone => NoneType
  | VInt _ => int_type
  | VFloat _ => float_type
  | VStr _ => str_type
  end.

(** ** The device snapshot *)

(** What an attribute of the snapshot object holds: nothing at all (the
    attribute is not set, reading it raises [AttributeError]), [None], or
    a value. *)
Inductive attribute (T : Type) : Type :=
  | Absent
  | IsNone
  | Holds (x : T).
Arguments Absent {T}.
Arguments IsNone {T}.
Arguments Holds {T} x.

(** A number as the device reports it: an [int] or a [float]. *)
Inductive number : Type :=
  | Int (z : Z)
  | Float (f : spec_float).

(** Modelled from the spec: the Device Snapshot, the object the
    coordinator publishes as [coordinator.data]; its class is declared by
    the device client library, outside this file. The metrics are the
    fields the data model lists (a string for [charger_state], numbers for
    the others); [dynamic_current], [led_max_brightness] and [fw_version]
    are the further attributes [sensor.py] reads. *)
Record Snapshot : Type := {
  charger_state : attribute string;
  charging_time : attribute number;
  current : attribute number;
  instant_power : attribute number;
  session_energy : attribute number;
  temperature : attribute number;
  total_charged_energy : attribute number;
  voltage : attribute number;
  install_current : attribute number;
  dynamic_current : attribute number;
  led_max_brightness : attribute number;
  fw_version : attribute string;
}.

(** Attribute access [data.x]. *)
Definition getattr {T : Type} (a : attribute T) : result (option T) :=
  match a with
  | Absent => Raise AttributeError
  | IsNone => Return None
  | Holds x => Return (Some x)
  end.

(** ** The builtins [str], [int] and [float] *)

Module builtins.

(** [str(x)] of a string or [None]. *)
Definition str (x : option string) : result value :=
  match x with
  | Some s => Return (VStr s)
  | None => Return (VStr "None")
  end.

(** The integral part of [m * 2^e], for a positive mantissa. *)
Definition trunc (m : positive) (e : Z) : Z :=
  if 0 <=? e then Z.shiftl (Zpos m) e else Z.shiftr (Zpos m) (- e).

(** [int(x)]: an int is returned as it is, a float is truncated towards
    zero; infinities, NaN and [None] are refused. *)
Definition int (x : option number) : result value :=
  match x with
  | None => Raise TypeError
  | Some (Int z) => Return (VInt z)
  | Some (Float (S754_zero _)) => Return (VInt 0)
  | Some (Float (S754_infinity _)) => Raise OverflowError
  | Some (Float S754_nan) => Raise ValueError
  | Some (Float (S754_finite s m e)) => Return (VInt (cond_Zopp s (trunc m e)))
  end.

(** [float(x)]: a float is returned as it is, an int is rounded to the
    nearest binary64 number (ties to even), and refused when that
    overflows; [None] is refused. *)
Definition float (x : option number) : result value :=
  match x with
  | None => Raise TypeError
  | Some (Float f) => Return (VFloat f)
  | Some (Int z) =>
      match binary_normalize prec emax z 0 false with
      | S754_infinity _ => Raise OverflowError
      | f => Return (VFloat f)
      end
  end.

End builtins.

(** ** Entity descriptions *)

(** The description classes of [sensor.py]; the first is the base class. *)
Inductive DescriptionClass : Type :=
  | LektricoSensorEntityDescription
  | ChargerStateSensorEntityDescription
  | ChargingTimeSensorEntityDescription
  | CurrentSensorEntityDescription
  | InstantPowerSensorEntityDescription
  | SessionEnergySensorEntityDescription
  | TemperatureSensorEntityDescription
  | TotalChargedEnergySensorEntityDescription
  | VoltageSensorEntityDescription
  | InstallCurrentSensorEntityDescription
  | DynamicCurrentSensorEntityDescription
  | LedMaxBrightnessSensorEntityDescription.

#[export] Instance DescriptionClass_eq_dec : EqDecision DescriptionClass.
Proof. solve_decision. Defined.

(** The class method [get_native_value(cls, data)], dispatched on the
    class as Python does. *)
Definition get_native_value (cls : DescriptionClass) (data : Snapshot)
  : result value :=
  match cls with
  | LektricoSensorEntityDescription => Return VNone
  | ChargerStateSensorEntityDescription =>
      x ← getattr (charger_state data); builtins.str x
  | ChargingTimeSensorEntityDescription =>
      x ← getattr (charging_time data); builtins.int x
  | CurrentSensorEntityDescription =>
      x ← getattr (current data); builtins.float x
  | InstantPowerSensorEntityDescription =>
      x ← getattr (instant_power data); builtins.float x
  | SessionEnergySensorEntityDescription =>
      x ← getattr (session_energy data); builtins.float x
  | TemperatureSensorEntityDescription =>
      x ← getattr (temperature data); builtins.float x
  | TotalChargedEnergySensorEntityDescription =>
      x ← getattr (total_charged_energy data); builtins.int x
  | VoltageSensorEntityDescription =>
      x ← getattr (voltage data); builtins.float x
  | InstallCurrentSensorEntityDescription =>
      x ← getattr (install_current data); builtins.int x
  | DynamicCurrentSensorEntityDescription =>
      x ← getattr (dynamic_current data); builtins.int x
  | LedMaxBrightnessSensorEntityDescription =>
      x ← getattr (led_max_brightness data); builtins.int x
  end.

(** The return annotation of each class's [get_native_value]; the base
    class declares the union [float | str | int | None]. *)
Definition return_annotation (cls : DescriptionClass) : list pytype :=
  match cls with
  | LektricoSensorEntityDescription =>
      [float_type; str_type; int_type; NoneType]
  | ChargerStateSensorEntityDescription => [str_type]
  | ChargingTimeSensorEntityDescription => [int_type]
  | CurrentSensorEntityDescription => [float_type]
  | InstantPowerSensorEntityDescription => [float_type]
  | SessionEnergySensorEntityDescription => [float_type]
  | TemperatureSensorEntityDescription => [float_type]
  | TotalChargedEnergySensorEntityDescription => [int_type]
  | VoltageSensorEntityDescription => [float_type]
  | InstallCurrentSensorEntityDescription => [int_type]
  | DynamicCurrentSensorEntityDescription => [int_type]
  | LedMaxBrightnessSensorEntityDescription => [int_type]
  end.

(** The constants of [homeassistant.const] and the enumerations of
    [homeassistant.components.sensor] the registry refers to, by name. *)
Inductive UnitOfMeasurement : Type :=
  | ELECTRIC_CURRENT_AMPERE
  | ELECTRIC_POTENTIAL_VOLT
  | ENERGY_KILO_WATT_HOUR
  | POWER_KILO_WATT
  | TEMP_CELSIUS
  | TIME_SECONDS.

Module SensorStateClass.
Inductive t : Type := MEASUREMENT | TOTAL_INCREASING.
End SensorStateClass.

Module SensorDeviceClass.
Inductive t : Type := CURRENT | POWER | ENERGY | TEMPERATURE | VOLTAGE.
End SensorDeviceClass.

#[export] Instance UnitOfMeasurement_eq_dec : EqDecision UnitOfMeasurement.
Proof. solve_decision. Defined.
#[export] Instance SensorStateClass_eq_dec : EqDecision SensorStateClass.t.
Proof. solve_decision. Defined.
#[export] Instance SensorDeviceClass_eq_dec : EqDecision SensorDeviceClass.t.
Proof. solve_decision. Defined.

(** An instance of a description class: the class and the dataclass fields
    the registry sets (the others keep their defaults). *)
Record Description : Type := {
  cls : DescriptionClass;
  key : string;
  name : string;
  state_class : option SensorStateClass.t;
  device_class : option SensorDeviceClass.t;
  native_unit_of_measurement : option UnitOfMeasurement;
}.

#[export] Instance Description_eq_dec : EqDecision Description.
Proof. solve_decision. Defined.

Definition SENSORS : list Description := [
  {| cls := ChargerStateSensorEntityDescription;
     key := "charger_state";
     name := "Charger state";
     state_class := None;
     device_class := None;
     native_unit_of_measurement := None |};
  {| cls := ChargingTimeSensorEntityDescription;
     key := "charging_time";
     name := "Charging time";
     state_class := None;
     device_class := None;
     native_unit_of_measurement := Some TIME_SECONDS |};
  {| cls := CurrentSensorEntityDescription;
     key := "current";
     name := "Current";
     state_class := Some SensorStateClass.MEASUREMENT;
     device_class := Some SensorDeviceClass.CURRENT;
     native_unit_of_measurement := Some ELECTRIC_CURRENT_AMPERE |};
  {| cls := InstantPowerSensorEntityDescription;
     key := "instant_power";
     name := "Instant power";
     state_class := Some SensorStateClass.MEASUREMENT;
     device_class := Some SensorDeviceClass.POWER;
     native_unit_of_measurement := Some POWER_KILO_WATT |};
  {| cls := SessionEnergySensorEntityDescription;
     key := "session_energy";
     name := "Session energy";
     state_class := None;
     device_class := Some SensorDeviceClass.ENERGY;
     native_unit_of_measurement := Some ENERGY_KILO_WATT_HOUR |};
  {| cls := TemperatureSensorEntityDescription;
     key := "temperature";
     name := "Temperature";
     state_class := Some SensorStateClass.MEASUREMENT;
     device_class := Some SensorDeviceClass.TEMPERATURE;
     native_unit_of_measurement := Some TEMP_CELSIUS |};
  {| cls := TotalChargedEnergySensorEntityDescription;
     key := "total_charged_energy";
     name := "Total charged energy";
     state_class := Some SensorStateClass.TOTAL_INCREASING;
     device_class := Some SensorDeviceClass.ENERGY;
     native_unit_of_measurement := Some ENERGY_KILO_WATT_HOUR |};
  {| cls := VoltageSensorEntityDescription;
     key := "voltage";
     name := "Voltage";
     state_class := None;
     device_class := Some SensorDeviceClass.VOLTAGE;
     native_unit_of_measurement := Some ELECTRIC_POTENTIAL_VOLT |};
  {| cls := InstallCurrentSensorEntityDescription;
     key := "install_current";
     name := "Install current";
     state_class := None;
     device_class := Some SensorDeviceClass.CURRENT;
     native_unit_of_measurement := Some ELECTRIC_CURRENT_AMPERE |}
].

(** ** The coordinator, the platform and the world they live in *)

(** Modelled from the spec: the refresh-source handle
    ([LektricoDeviceDataUpdateCoordinator], declared in the component's
    [__init__.py]): it exposes the device serial number, the hardware board
    revision and the current snapshot [data], which each refresh replaces. *)
Record LektricoDeviceDataUpdateCoordinator : Type := {
  serial_number : string;
  board_revision : string;
  data : Snapshot;
}.

(** Coordinators are shared mutable objects: entities hold a reference to
    one, and the heap maps references to the objects' current states. *)
Definition ref : Type := positive.

Module DeviceInfo.
Record t : Type := {
  identifiers : gset (string * string);
  model : string;
  name : string;
  manufacturer : string;
  sw_version : option string;
}.
End DeviceInfo.

(** The attributes of a [LektricoSensor] object: [coordinator] is set by
    [CoordinatorEntity.__init__], the others by [LektricoSensor.__init__]. *)
Record LektricoSensor : Type := {
  entity_description : Description;
  coordinator : ref;
  _attr_unique_id : string;
  _attr_device_info : DeviceInfo.t;
}.

Definition _attr_has_entity_name : bool := true.

(** The state of the running system: the coordinators on the heap and the
    entities registered with the platform, in registration order. *)
Record World : Type := {
  heap : gmap ref LektricoDeviceDataUpdateCoordinator;
  platform : list LektricoSensor;
}.

(** The domain of the integration, declared in the component's [const.py]. *)
Definition DOMAIN : string := "lektrico".

(** [homeassistant.const.CONF_FRIENDLY_NAME]. *)
Definition CONF_FRIENDLY_NAME : string := "friendly_name".

(** [hass.data], restricted to what the integration stores: for each
    domain, the coordinator of each config entry. *)
Record HomeAssistant : Type := {
  hass_data : gmap string (gmap string ref);
}.

Record ConfigEntry : Type := {
  entry_id : string;
  entry_data : gmap string string;
}.

(** Subscription [d[k]] of a dict. *)
Definition getitem `{Countable K} {V : Type} (d : gmap K V) (k : K)
  : result V :=
  match d !! k with
  | Some v => Return v
  | None => Raise KeyError
  end.

(** A computation that reads the heap. It yields [None] only when it
    follows a reference that is not on the heap, which no Python program
    can hold; otherwise it yields the Python outcome. *)
Definition Reader (A : Type) : Type :=
  gmap ref LektricoDeviceDataUpdateCoordinator → option (result A).

(** ** The entity *)

(** The constructor [LektricoSensor(description, coordinator,
    friendly_name)]. *)
Definition __init__ (description : Description) (coordinator : ref)
    (friendly_name : string) : Reader LektricoSensor := λ h,
  c ← h !! coordinator;
  Some (
    fw ← getattr (fw_version (data c));
    Return {|
      entity_description := description;
      coordinator := coordinator;
      _attr_unique_id := serial_number c +:+ "_" +:+ key description;
      _attr_device_info := {|
        DeviceInfo.identifiers := {[ (DOMAIN, serial_number c) ]};
        DeviceInfo.model :=
          "1P7K " +:+ serial_number c +:+ " rev." +:+ board_revision c;
        DeviceInfo.name := friendly_name;
        DeviceInfo.manufacturer := "Lektrico";
        DeviceInfo.sw_version := fw;
      |};
    |}).

(** The property [native_value]. *)
Definition native_value (self : LektricoSensor) : Reader value := λ h,
  c ← h !! coordinator self;
  Some (get_native_value (cls (entity_description self)) (data c)).

(** ** Setup *)

(** Iterating a generator: its items are produced in order, and the first
    exception ends the iteration. *)
Fixpoint iterate {A : Type} (items : list (Reader A)) : Reader (list A) :=
  λ h,
  match items with
  | [] => Some (Return [])
  | item :: rest =>
      r ← item h;
      match r with
      | Raise e => Some (Raise e)
      | Return a =>
          r' ← iterate rest h;
          Some (l ← (r' : result (list A)); Return (a :: l))
      end
  end.

(** Modelled from the spec: the platform's registration callback
    ([AddEntitiesCallback]), which takes the entities the iterable yields
    and registers the full set, in the order it received them. *)
Definition async_add_entities (new_entities : list (Reader LektricoSensor))
    (w : World) : option (result World) :=
  r ← iterate new_entities (heap w);
  Some (es ← r; Return {| heap := heap w; platform := platform w ++ es |}).

(** [async_setup_entry(hass, entry, async_add_entities)]: the generator
    expression is handed to the callback unevaluated, so the friendly name
    is looked up as each entity is produced. *)
Definition async_setup_entry (hass : HomeAssistant) (entry : ConfigEntry)
    (w : World) : option (result World) :=
  match (entries ← getitem (hass_data hass) DOMAIN;
         getitem entries (entry_id entry)) with
  | Raise e => Some (Raise e)
  | Return coordinator =>
      async_add_entities
        ((λ description : Description, λ h,
            match getitem (entry_data entry) CONF_FRIENDLY_NAME with
            | Raise e => Some (Raise e)
            | Return friendly_name =>
                __init__ description coordinator friendly_name h
            end) <$> SENSORS)
        w
  end.

(** ** Refreshes and reads *)

(** Modelled from the spec: a refresh of the coordinator, which replaces
    its snapshot wholesale and changes nothing else. *)
Definition refresh (r : ref) (s : Snapshot) (w : World) : World :=
  {| heap := alter (λ c, {| serial_number := serial_number c;
                            board_revision := board_revision c;
                            data := s |}) r (heap w);
     platform := platform w |}.

(** What happens to a set-up device: the coordinator publishes a new
    snapshot, or the platform reads the value of a registered entity. *)
Inductive event : Type :=
  | Refresh (r : ref) (s : Snapshot)
  | Read (i : nat).

(** One event: the new world and what the platform observed ([None] when
    nothing was read). *)
Definition step (ev : event) (w : World)
  : World * option (option (result value)) :=
  match ev with
  | Refresh r s => (refresh r s w, None)
  | Read i =>
      match platform w !! i with
      | Some self => (w, Some (native_value self (heap w)))
      | None => (w, None)
      end
  end.

Fixpoint run (evs : list event) (w : World) : World :=
  match evs with
  | [] => w
  | ev :: rest => run rest (fst (step ev w))
  end.

(** ** The specification's view of the snapshot and of the registry *)

Definition as_value (n : number) : value :=
  match n with
  | Int z => VInt z
  | Float f => VFloat f
  end.

Definition view {T : Type} (f : T → value) (a : attribute T)
  : attribute value :=
  match a with
  | Absent => Absent
  | IsNone => IsNone
  | Holds x => Holds (f x)
  end.

(** The metric fields of a snapshot, by name. *)
Definition fields : list (string * (Snapshot → attribute value)) := [
  ("charger_state", λ data, view VStr (charger_state data));
  ("charging_time", λ data, view as_value (charging_time data));
  ("current", λ data, view as_value (current data));
  ("instant_power", λ data, view as_value (instant_power data));
  ("session_energy", λ data, view as_value (session_energy data));
  ("temperature", λ data, view as_value (temperature data));
  ("total_charged_energy", λ data, view as_value (total_charged_energy data));
  ("voltage", λ data, view as_value (voltage data));
  ("install_current", λ data, view as_value (install_current data))
].

Fixpoint assoc {V : Type} (k : string) (table : list (string * V))
  : option V :=
  match table with
  | [] => None
  | (k', v) :: rest => if decide (k = k') then Some v else assoc k rest
  end.

(** The snapshot field named [k]; a name that is no metric is absent. *)
Definition field (k : string) (data : Snapshot) : attribute value :=
  match assoc k fields with
  | Some f => f data
  | None => Absent
  end.

(** The type the specification declares for each metric. *)
Definition declared_type : list (string * pytype) := [
  ("charger_state", str_type);
  ("charging_time", int_type);
  ("current", float_type);
  ("instant_power", float_type);
  ("session_energy", float_type);
  ("temperature", float_type);
  ("total_charged_energy", int_type);
  ("voltage", float_type);
  ("install_current", int_type)
].

Definition holds_str (a : attribute string) : bool :=
  match a with
  | Holds _ => true
  | _ => false
  end.

Definition holds_int (a : attribute number) : bool :=
  match a with
  | Holds (Int _) => true
  | _ => false
  end.

Definition holds_float (a : attribute number) : bool :=
  match a with
  | Holds (Float _) => true
  | _ => false
  end.

(** A fully populated snapshot: every metric is present and holds a value
    of the type the data model gives it. *)
Definition fully_populated (data : Snapshot) : bool :=
  holds_str (charger_state data)
  && holds_int (charging_time data)
  && holds_float (current data)
  && holds_float (instant_power data)
  && holds_float (session_energy data)
  && holds_float (temperature data)
  && holds_int (total_charged_energy data)
  && holds_float (voltage data)
  && holds_int (install_current data).

(** The extraction rule the specification tabulates for each key. *)
Definition extraction_rule : list (string * (Snapshot → result value)) := [
  ("charger_state",
    λ data, x ← getattr (charger_state data); builtins.str x);
  ("charging_time",
    λ data, x ← getattr (charging_time data); builtins.int x);
  ("current", λ data, x ← getattr (current data); builtins.float x);
  ("instant_power",
    λ data, x ← getattr (instant_power data); builtins.float x);
  ("session_energy",
    λ data, x ← getattr (session_energy data); builtins.float x);
  ("temperature", λ data, x ← getattr (temperature data); builtins.float x);
  ("total_charged_energy",
    λ data, x ← getattr (total_charged_energy data); builtins.int x);
  ("voltage", λ data, x ← getattr (voltage data); builtins.float x);
  ("install_current",
    λ data, x ← getattr (install_current data); builtins.int x)
].

(** ** Example devices *)

(** The float 16.0, that is 2^52 * 2^-48. *)
Definition sixteen : spec_float := S754_finite false 4503599627370496 (-48).

(** The snapshot of the specification's scenario; the firmware version and
    the two metrics without a sensor are not part of the scenario. *)
Definition charging : Snapshot := {|
  charger_state := Holds "charging";
  charging_time := Holds (Int 3600);
  current := Holds (Float sixteen);
  (* 3.68, to the nearest float *)
  instant_power := Holds (Float (S754_finite false 8286623314361713 (-51)));
  (* 1.25 *)
  session_energy := Holds (Float (S754_finite false 5629499534213120 (-52)));
  (* 34.5 *)
  temperature := Holds (Float (S754_finite false 4855443348258816 (-47)));
  total_charged_energy := Holds (Int 102);
  (* 230.0 *)
  voltage := Holds (Float (S754_finite false 8092405580431360 (-45)));
  install_current := Holds (Int 32);
  dynamic_current := Holds (Int 32);
  led_max_brightness := Holds (Int 20);
  fw_version := Holds "1.44";
|}.

(** A snapshot is the scenario's when its nine metrics are. *)
Definition scenario (data : Snapshot) : Prop :=
  charger_state data = charger_state charging
  ∧ charging_time data = charging_time charging
  ∧ current data = current charging
  ∧ instant_power data = instant_power charging
  ∧ session_energy data = session_energy charging
  ∧ temperature data = temperature charging
  ∧ total_charged_energy data = total_charged_energy charging
  ∧ voltage data = voltage charging
  ∧ install_current data = install_current charging.

(** The same snapshot without its [temperature] attribute. *)
Definition no_temperature : Snapshot := {|
  charger_state := charger_state charging;
  charging_time := charging_time charging;
  current := current charging;
  instant_power := instant_power charging;
  session_energy := session_energy charging;
  temperature := Absent;
  total_charged_energy := total_charged_energy charging;
  voltage := voltage charging;
  install_current := install_current charging;
  dynamic_current := dynamic_current charging;
  led_max_brightness := led_max_brightness charging;
  fw_version := fw_version charging;
|}.

(** The coordinator of a charger with serial number [serial] that
    publishes [s]. *)
Definition charger (serial : string) (s : Snapshot)
  : LektricoDeviceDataUpdateCoordinator :=
  {| serial_number := serial; board_revision := "B"; data := s |}.

(** A world with that one charger, at reference 1, and nothing registered
    yet. *)
Definition device (serial : string) (s : Snapshot) : World :=
  {| heap := {[ 1%positive := charger serial s ]}; platform := [] |}.

(** The configuration: two entries, whose coordinators are at references
    1 and 2. *)
Definition home : HomeAssistant :=
  {| hass_data :=
       {[ DOMAIN := {[ "garage" := 1%positive;
                       "carport" := 2%positive ]} ]} |}.

Definition garage : ConfigEntry :=
  {| entry_id := "garage";
     entry_data := {[ CONF_FRIENDLY_NAME := "Garage charger" ]} |}.

Definition carport : ConfigEntry :=
  {| entry_id := "carport";
     entry_data := {[ CONF_FRIENDLY_NAME := "Carport charger" ]} |}.

(** The entities [async_setup_entry] registers for a device, when it
    returns. *)
Definition registered (w : World) : list LektricoSensor :=
  match async_setup_entry home garage w with
  | Some (Return w') => platform w'
  | _ => []
  end.

(** Two chargers, with serial numbers AAA111 and BBB222, and the entities
    registered once both are set up. *)
Definition two_chargers : World :=
  {| heap := {[ 1%positive := charger "AAA111" charging;
                2%positive := charger "BBB222" charging ]};
     platform := [] |}.

Definition both_registered : list LektricoSensor :=
  match async_setup_entry home garage two_chargers with
  | Some (Return w) =>
      match async_setup_entry home carport w with
      | Some (Return w') => platform w'
      | _ => []
      end
  | _ => []
  end.

(** The scenario's snapshot after a firmware upgrade and a cool-down. *)
Definition upgraded : Snapshot := {|
  charger_state := charger_state charging;
  charging_time := charging_time charging;
  current := current charging;
  instant_power := instant_power charging;
  session_energy := session_energy charging;
  temperature := Holds (Int 20);
  total_charged_energy := total_charged_energy charging;
  voltage := voltage charging;
  install_current := install_current charging;
  dynamic_current := dynamic_current charging;
  led_max_brightness := led_max_brightness charging;
  fw_version := Holds "1.45";
|}.

(** The scenario's snapshot with a charging time of 3.68 seconds, as a
    float. *)
Definition fractional_time : Snapshot := {|
  charger_state := charger_state charging;
  charging_time := instant_power charging;
  current := current charging;
  instant_power := instant_power charging;
  session_energy := session_energy charging;
  temperature := temperature charging;
  total_charged_energy := total_charged_energy charging;
  voltage := voltage charging;
  install_current := install_current charging;
  dynamic_current := dynamic_current charging;
  led_max_brightness := led_max_brightness charging;
  fw_version := fw_version charging;
|}.

(** The scenario's snapshot without its [fw_version] attribute. *)
Definition no_firmware : Snapshot := {|
  charger_state := charger_state charging;
  charging_time := charging_time charging;
  current := current charging;
  instant_power := instant_power charging;
  session_energy := session_energy charging;
  temperature := temperature charging;
  total_charged_energy := total_charged_energy charging;
  voltage := voltage charging;
  install_current := install_current charging;
  dynamic_current := dynamic_current charging;
  led_max_brightness := led_max_brightness charging;
  fw_version := Absent;
|}.

(** ** Populated snapshots and what the coercions accept *)



Definition finite (f : spec_float) : bool :=
  match f with
  | S754_zero _ | S754_finite _ _ _ => true
  | S754_infinity _ | S754_nan => false
  end.

(** The values the coercion to a type accepts: [str] a string, [int] an
    int or a finite float, [float] a float or an int that the largest
    float still bounds. *)
Definition accepts (t : pytype) (v : value) : bool :=
  match t, v with
  | str_type, VStr _ => true
  | int_type, VInt _ => true
  | int_type, VFloat f => finite f
  | float_type, VFloat _ => true
  | float_type, VInt z =>
      match binary_normalize prec emax z 0 false with
      | S754_infinity _ => false
      | _ => true
      end
  | _, _ => false
  end.

(** What a read of a field that holds [x] gives a sensor declared with
    type [t]: a value of type [t] when the coercion accepts [x], [x]
    itself when it already has type [t], and otherwise one of the two
    exceptions with which [int] and [float] refuse a number. *)
Definition coerced (t : pytype) (x : value) (o : option (result value))
  : Prop :=
  (accepts t x = true → ∃ v, o = Some (Return v) ∧ type v = t)
  ∧ (accepts t x = false →
     o = Some (Raise ValueError) ∨ o = Some (Raise OverflowError))
  ∧ (type x = t → accepts t x = true ∧ o = Some (Return x))
  ∧ (∀ v, o = Some (Return v) → type v = t).

(** The float 20.0, that is 5 * 2^50 * 2^-48. *)
Definition twenty : spec_float := S754_finite false 5629499534213120 (-48).


(** ** The generator of entities, and worlds that hang together *)

(** The generator expression [async_setup_entry] hands to the callback:
    one deferred construction per description of the registry, each of
    which looks the friendly name up when it is forced. *)
Definition new_entities (entry : ConfigEntry) (coordinator : ref)
  : list (Reader LektricoSensor) :=
  (λ description : Description, λ h,
     match getitem (entry_data entry) CONF_FRIENDLY_NAME with
     | Raise e => Some (Raise e)
     | Return friendly_name =>
         __init__ description coordinator friendly_name h
     end) <$> SENSORS.

(** The items a consumer has received from a generator when the iteration
    stops: at its end, or at the first item that does not return. *)
Fixpoint yielded {A : Type} (items : list (Reader A))
    (h : gmap ref LektricoDeviceDataUpdateCoordinator) : list A :=
  match items with
  | [] => []
  | item :: rest =>
      match item h with
      | Some (Return a) => a :: yielded rest h
      | _ => []
      end
  end.

(** A string without the separator of unique ids. *)
Fixpoint no_underscore (s : string) : bool :=
  match s with
  | EmptyString => true
  | String a s' => negb (Ascii.eqb a "_"%char) && no_underscore s'
  end.

(** An entity and the world agree when the entity's coordinator is on the
    heap and the entity's unique id and device identifiers name that
    coordinator's serial number. *)
Definition agrees (w : World) (self : LektricoSensor) : Prop :=
  ∃ c, heap w !! coordinator self = Some c
     ∧ _attr_unique_id self
       = serial_number c +:+ "_" +:+ key (entity_description self)
     ∧ DeviceInfo.identifiers (_attr_device_info self)
       = {[ (DOMAIN, serial_number c) ]}.

Definition consistent (w : World) : Prop :=
  Forall (agrees w) (platform w).

Definition is_number (v : value) : bool :=
  match v with
  | VInt _ | VFloat _ => true
  | _ => false
  end.

(** ** Extraction *)

(** Case analysis on a description of the registry. *)
Ltac registry_cases H :=
  unfold SENSORS in H;
  repeat (apply elem_of_cons in H as [-> | H]);
  [.. | by apply elem_of_nil in H].

(** The attributes a fully populated snapshot holds, one after the other. *)
Ltac populated H :=
  unfold fully_populated in H;
  repeat (apply andb_prop in H as [H ?]);
  repeat match goal with
    | Hf : holds_str ?a = true |- _ =>
        destruct a as [| |?]; try discriminate Hf; clear Hf
    | Hf : holds_int ?a = true |- _ =>
        destruct a as [| |[?|?]]; try discriminate Hf; clear Hf
    | Hf : holds_float ?a = true |- _ =>
        destruct a as [| |[?|?]]; try discriminate Hf; clear Hf
    end.

(** The builtins on a few inputs: [int] truncates towards zero,
    [float] rounds to nearest with ties to even and refuses what lies
    beyond the largest float, and both refuse [None] while [str] turns it
    into a string. *)
Example int_of_float :
  builtins.int (Some (Float (S754_finite true 8286623314361713 (-51))))
  = Return (VInt (-3))
  ∧ builtins.int (Some (Float sixteen)) = Return (VInt 16)
  ∧ builtins.int (Some (Float (S754_infinity false))) = Raise OverflowError
  ∧ builtins.int (Some (Float S754_nan)) = Raise ValueError.
Proof. by repeat split. Qed.

Example float_of_int :
  builtins.float (Some (Int 16)) = Return (VFloat sixteen)
  ∧ builtins.float (Some (Int (2 ^ 53 + 1)))
    = Return (VFloat (S754_finite false 4503599627370496 1))
  ∧ builtins.float (Some (Int (2 ^ 53 + 3)))
    = Return (VFloat (S754_finite false 4503599627370498 1))
  ∧ builtins.float (Some (Int (2 ^ 1024))) = Raise OverflowError
  ∧ builtins.float (Some (Int 0)) = Return (VFloat (S754_zero false)).
Proof. by repeat split. Qed.

Example coercions_of_None :
  builtins.str None = Return (VStr "None")
  ∧ builtins.int None = Raise TypeError
  ∧ builtins.float None = Raise TypeError.
Proof. by repeat split. Qed.

(** Whenever a class of the registry returns, the value has the type the
    class annotates. *)
Lemma get_native_value_annotated (d : Description) (data : Snapshot) v :
  d ∈ SENSORS →
  get_native_value (cls d) data = Return v →
  return_annotation (cls d) = [type v].
Proof.
  intros Hd.
  registry_cases Hd; simpl;
    match goal with
    | |- context [getattr ?a] => destruct a as [| |x]; simpl; try done
    end;
    try (by intros [= <-]);
    try (destruct x as [z|f]; simpl;
         [|try destruct f; by intros [= <-]]);
    try (by intros [= <-]);
    try (destruct (binary_normalize prec emax z 0 false);
         by intros [= <-]).
Qed.

Lemma native_value_eq (self : LektricoSensor) h c :
  h !! coordinator self = Some c →
  native_value self h
  = Some (get_native_value (cls (entity_description self)) (data c)).
Proof. intros Hc. unfold native_value. by rewrite Hc. Qed.

(** C1, as stated, fails: on the snapshot without its [temperature]
    attribute the temperature sensor, the sixth of the device's entities,
    does not read as [None]; the attribute access raises
    [AttributeError]. *)
Lemma temperature_missing_is_an_exception :
  field "temperature" no_temperature = Absent
  ∧ get_native_value TemperatureSensorEntityDescription no_temperature
    = Raise AttributeError
  ∧ get_native_value TemperatureSensorEntityDescription no_temperature
    ≠ Return VNone
  ∧ (λ self, (key (entity_description self),
              native_value self (heap (device "AAA111" no_temperature))))
    <$> registered (device "AAA111" no_temperature) !! 5%nat
    = Some ("temperature", Some (Raise AttributeError)).
Proof. repeat split; try done. Qed.

(** C1, amended: for every description of the registry, when the snapshot
    lacks the attribute the description extracts, [get_native_value], and
    with it the sensor's [native_value], raises [AttributeError]. *)
Theorem missing_field_raises (self : LektricoSensor) h c :
  entity_description self ∈ SENSORS →
  h !! coordinator self = Some c →
  field (key (entity_description self)) (data c) = Absent →
  get_native_value (cls (entity_description self)) (data c)
  = Raise AttributeError
  ∧ native_value self h = Some (Raise AttributeError).
Proof.
  intros Hd Hc Hf. rewrite (native_value_eq _ _ _ Hc).
  cut (get_native_value (cls (entity_description self)) (data c)
       = Raise AttributeError); [by intros ->|].
  clear Hc. generalize dependent (entity_description self). intros d Hd Hf.
  registry_cases Hd; unfold field in Hf; simpl in Hf |- *;
    match goal with
    | |- context [getattr ?a] => by destruct a
    end.
Qed.

Lemma missing_field_raises_witness :
  ∃ self, registered (device "AAA111" no_temperature) !! 5%nat = Some self
  ∧ native_value self (heap (device "AAA111" no_temperature))
    = Some (Raise AttributeError).
Proof.
  eexists. split; [reflexivity|].
  eapply missing_field_raises; [| reflexivity | reflexivity].
  cbn. unfold SENSORS. set_solver.
Defined.


(** One combination of a field value and a coercion. *)
Ltac coerced_case :=
  unfold coerced; simpl;
  split; [first [done | intros _; eauto]|];
  split; [first [done | intros _; eauto]|];
  split; [first [done | by intros _; split]|];
  first [done | by intros v [= <-]].

Lemma str_coerced (s : string) :
  coerced str_type (VStr s) (Some (builtins.str (Some s))).
Proof. coerced_case. Qed.

Lemma int_coerced (x : number) :
  coerced int_type (as_value x) (Some (builtins.int (Some x))).
Proof. destruct x as [z|[sign|sign| |sign m e]]; coerced_case. Qed.

Lemma float_coerced (x : number) :
  coerced float_type (as_value x) (Some (builtins.float (Some x))).
Proof.
  destruct x as [z|f]; [|coerced_case].
  unfold coerced. simpl.
  destruct (binary_normalize prec emax z 0 false); coerced_case.
Qed.




(** Equal views come from equal attributes. *)
Lemma view_inj {T : Type} (f : T → value) (a b : attribute T) :
  (∀ x y, f x = f y → x = y) → view f a = view f b → a = b.
Proof.
  intros Hf. destruct a, b; simpl; intros Hv; try done.
  injection Hv as Hv. by rewrite (Hf _ _ Hv).
Qed.

Lemma as_value_inj (x y : number) : as_value x = as_value y → x = y.
Proof. destruct x, y; simpl; congruence. Qed.

Lemma VStr_inj (x y : string) : VStr x = VStr y → x = y.
Proof. congruence. Qed.

(** C3: for every description of the registry and every snapshot,
    populated or not, [get_native_value] is the rule the specification
    tabulates for the description's key: the coercion [str], [int] or
    [float] of the one field of that name. Two snapshots that agree on
    that field extract alike, whatever their other fields hold; a value
    that already has the declared type is returned as it is, unvalidated
    and unclamped; and whatever is returned has the declared type. *)
Theorem extraction_is_coercion (d : Description) (data : Snapshot) :
  d ∈ SENSORS →
  (λ rule, rule data) <$> assoc (key d) extraction_rule
  = Some (get_native_value (cls d) data)
  ∧ (∀ data', field (key d) data' = field (key d) data →
              get_native_value (cls d) data' = get_native_value (cls d) data)
  ∧ ∃ t, assoc (key d) declared_type = Some t
       ∧ (∀ x, field (key d) data = Holds x → type x = t →
               get_native_value (cls d) data = Return x)
       ∧ (∀ v, get_native_value (cls d) data = Return v → type v = t).
Proof.
  intros Hd. split; [by registry_cases Hd|]. split.
  - intros data' Hf.
    registry_cases Hd; unfold field in Hf; simpl in Hf |- *;
      (apply view_inj in Hf; [by rewrite Hf|]);
      auto using as_value_inj, VStr_inj.
  - registry_cases Hd; unfold field; simpl;
      eexists; (split; [reflexivity|]);
      match goal with
      | |- context [getattr ?a] => destruct a as [| |y]; simpl
      end;
      try match goal with
          | y : string |- _ =>
              destruct (str_coerced y) as (_ & _ & Hsame & Hty)
          | y : number |- context [Raise ValueError] =>
              destruct (int_coerced y) as (_ & _ & Hsame & Hty)
          | y : number |- _ =>
              destruct (float_coerced y) as (_ & _ & Hsame & Hty)
          end;
      (split;
       [ intros x Hx Ht;
         first [ discriminate Hx
               | injection Hx as Hx; subst x;
                 destruct (Hsame Ht) as [_ Heq];
                 exact (inj Some _ _ Heq) ]
       | intros v Hv;
         first [ discriminate Hv
               | by injection Hv as <-
               | apply Hty; by f_equal ] ]).
Qed.

Lemma extraction_is_coercion_witness :
  field "temperature" upgraded = Holds (VInt 20)
  ∧ (λ rule, rule upgraded) <$> assoc "temperature" extraction_rule
    = Some (Return (VFloat twenty))
  ∧ get_native_value TemperatureSensorEntityDescription upgraded
    = builtins.float (Some (Int 20)).
Proof.
  destruct (extraction_is_coercion
              {| cls := TemperatureSensorEntityDescription;
                 key := "temperature";
                 name := "Temperature";
                 state_class := Some SensorStateClass.MEASUREMENT;
                 device_class := Some SensorDeviceClass.TEMPERATURE;
                 native_unit_of_measurement := Some TEMP_CELSIUS |}
              upgraded)
    as (Hrule & _ & _).
  - unfold SENSORS. set_solver.
  - split; [reflexivity|]. split; [|reflexivity].
    simpl key in Hrule. rewrite Hrule. reflexivity.
Defined.

(** C4: a sensor of the registry whose coordinator holds the scenario's
    snapshot reads the integer 3600 when its key is charging_time, the
    float 16.0 when it is current, and the integer 102 when it is
    total_charged_energy. *)
Theorem scenario_reads (self : LektricoSensor) h c :
  entity_description self ∈ SENSORS →
  h !! coordinator self = Some c →
  scenario (data c) →
  (key (entity_description self) = "charging_time" →
   native_value self h = Some (Return (VInt 3600)))
  ∧ (key (entity_description self) = "current" →
     native_value self h = Some (Return (VFloat sixteen)))
  ∧ (key (entity_description self) = "total_charged_energy" →
     native_value self h = Some (Return (VInt 102))).
Proof.
  intros Hd Hc Hs. rewrite (native_value_eq _ _ _ Hc). clear Hc.
  generalize dependent (entity_description self). intros d Hd.
  destruct Hs as (Hs1 & Hs2 & Hs3 & Hs4 & Hs5 & Hs6 & Hs7 & Hs8 & Hs9).
  registry_cases Hd; simpl; repeat split; intros Hk; try discriminate Hk.
  - by rewrite Hs2.
  - by rewrite Hs3.
  - by rewrite Hs7.
Qed.

Lemma scenario_reads_witness :
  ∃ self, registered (device "AAA111" charging) !! 1%nat = Some self
  ∧ native_value self (heap (device "AAA111" charging))
    = Some (Return (VInt 3600)).
Proof.
  eexists. split; [reflexivity|].
  eapply scenario_reads; [| reflexivity | | reflexivity].
  - cbn. unfold SENSORS. set_solver.
  - repeat split.
Defined.

(** ** Construction and identity *)

(** The constructor returns as soon as the coordinator's snapshot has a
    [fw_version] attribute, and what it returns is determined by its
    arguments and the coordinator's state. *)
Lemma init_returns (d : Description) (r : ref) (friendly_name : string) h c :
  h !! r = Some c →
  fw_version (data c) ≠ Absent →
  ∃ fw, getattr (fw_version (data c)) = Return fw
      ∧ __init__ d r friendly_name h
        = Some (Return {|
            entity_description := d;
            coordinator := r;
            _attr_unique_id := serial_number c +:+ "_" +:+ key d;
            _attr_device_info := {|
              DeviceInfo.identifiers := {[ (DOMAIN, serial_number c) ]};
              DeviceInfo.model :=
                "1P7K " +:+ serial_number c +:+ " rev." +:+ board_revision c;
              DeviceInfo.name := friendly_name;
              DeviceInfo.manufacturer := "Lektrico";
              DeviceInfo.sw_version := fw |} |}).
Proof.
  intros Hc Hfw. unfold __init__. rewrite Hc. simpl.
  destruct (fw_version (data c)); [done | eauto ..].
Qed.

Lemma init_inv (d : Description) (r : ref) (friendly_name : string) h self :
  __init__ d r friendly_name h = Some (Return self) →
  ∃ c, h !! r = Some c
     ∧ fw_version (data c) ≠ Absent
     ∧ entity_description self = d
     ∧ coordinator self = r
     ∧ _attr_unique_id self = serial_number c +:+ "_" +:+ key d.
Proof.
  unfold __init__. destruct (h !! r) as [c|]; [|done]. simpl.
  destruct (fw_version (data c)) eqn:Hfw; [done | ..];
    intros [= <-]; exists c; rewrite Hfw; by repeat split.
Qed.

Lemma append_inj_r (s a b : string) : s +:+ a = s +:+ b → a = b.
Proof. induction s as [|ch s IH]; simpl; [done|]. intros [= H]. auto. Qed.

(** No two descriptions of the registry share a key. *)
Lemma registry_key_inj (d1 d2 : Description) :
  d1 ∈ SENSORS → d2 ∈ SENSORS → key d1 = key d2 → d1 = d2.
Proof. intros H1 H2. registry_cases H1; registry_cases H2; done. Qed.

(** C5: the entity constructed for a description and a coordinator has the
    unique id made of the device's serial number, an underscore and the
    description's key. *)
Theorem unique_id_is_serial_and_key
    (d : Description) (r : ref) (friendly_name : string) h c :
  h !! r = Some c →
  fw_version (data c) ≠ Absent →
  ∃ self, __init__ d r friendly_name h = Some (Return self)
        ∧ _attr_unique_id self = serial_number c +:+ "_" +:+ key d.
Proof.
  intros Hc Hfw.
  destruct (init_returns d r friendly_name h c Hc Hfw) as (fw & _ & Hinit).
  eexists. split; [exact Hinit|done].
Qed.

Lemma unique_id_is_serial_and_key_witness :
  ∃ self, __init__ {| cls := VoltageSensorEntityDescription;
                      key := "voltage";
                      name := "Voltage";
                      state_class := None;
                      device_class := Some SensorDeviceClass.VOLTAGE;
                      native_unit_of_measurement :=
                        Some ELECTRIC_POTENTIAL_VOLT |}
                   1%positive "Garage charger"
                   (heap (device "AAA111" charging))
          = Some (Return self)
        ∧ _attr_unique_id self = "AAA111_voltage".
Proof.
  match goal with
  | |- ∃ self, __init__ ?d ?r ?n ?h = _ ∧ _ =>
      destruct (unique_id_is_serial_and_key d r n h
                  (charger "AAA111" charging))
        as (self & Hinit & Hid)
  end.
  - reflexivity.
  - discriminate.
  - exists self. split; [exact Hinit|]. rewrite Hid. reflexivity.
Defined.

(** C6: two distinct descriptions of the registry, constructed for the
    same device, get different unique ids; and the two chargers AAA111 and
    BBB222, each set up with the nine descriptions, register eighteen
    entities whose unique ids are pairwise distinct. *)
Theorem unique_ids_differ (d1 d2 : Description) (r : ref)
    (name1 name2 : string) h (self1 self2 : LektricoSensor) :
  d1 ∈ SENSORS →
  d2 ∈ SENSORS →
  d1 ≠ d2 →
  __init__ d1 r name1 h = Some (Return self1) →
  __init__ d2 r name2 h = Some (Return self2) →
  _attr_unique_id self1 ≠ _attr_unique_id self2
  ∧ length both_registered = 18%nat
  ∧ serial_number <$> heap two_chargers
    = {[ 1%positive := "AAA111"; 2%positive := "BBB222" ]}
  ∧ NoDup (_attr_unique_id <$> both_registered).
Proof.
  intros H1 H2 Hne Hi1 Hi2. split; [|split; [|split]].
  - apply init_inv in Hi1 as (c1 & Hc1 & _ & _ & _ & ->).
    apply init_inv in Hi2 as (c2 & Hc2 & _ & _ & _ & ->).
    rewrite Hc1 in Hc2. injection Hc2 as <-.
    intros Heq. apply append_inj_r, append_inj_r in Heq.
    by apply Hne, registry_key_inj.
  - reflexivity.
  - by vm_compute.
  - vm_compute. apply NoDup_ListNoDup.
    repeat constructor; simpl; intuition discriminate.
Qed.

Lemma unique_ids_differ_witness :
  ∃ self1 self2,
    registered (device "AAA111" charging) !! 0%nat = Some self1
    ∧ registered (device "AAA111" charging) !! 8%nat = Some self2
    ∧ _attr_unique_id self1 ≠ _attr_unique_id self2.
Proof.
  eexists _, _. split; [reflexivity|]. split; [reflexivity|].
  match goal with
  | |- _attr_unique_id ?e1 ≠ _attr_unique_id ?e2 =>
      eapply (λ H1 H2 H3 H4 H5,
                proj1 (unique_ids_differ
                         (entity_description e1) (entity_description e2)
                         1%positive "Garage charger" "Garage charger"
                         (heap (device "AAA111" charging)) e1 e2
                         H1 H2 H3 H4 H5))
  end.
  - cbn. unfold SENSORS. set_solver.
  - cbn. unfold SENSORS. set_solver.
  - discriminate.
  - reflexivity.
  - reflexivity.
Defined.

(** ** Reads, refreshes and setup *)

(** Events leave the registered entities as they are. *)
Lemma step_platform (ev : event) (w : World) :
  platform (fst (step ev w)) = platform w.
Proof.
  destruct ev as [r s|i]; simpl; [done|]. by destruct (platform w !! i).
Qed.

Lemma run_platform (evs : list event) (w : World) :
  platform (run evs w) = platform w.
Proof.
  revert w. induction evs as [|ev evs IH]; intros w; simpl; [done|].
  by rewrite IH, step_platform.
Qed.

(** A read leaves the whole world as it is. *)
Lemma step_read (i : nat) (w : World) : fst (step (Read i) w) = w.
Proof. simpl. by destruct (platform w !! i). Qed.

(** C7: a read is a function of the sensor's description and of the
    snapshot its coordinator holds, and of nothing else: in two worlds
    whose coordinators hold the same snapshot the sensor reads alike, a
    read changes nothing in the world, and so a second read right after
    the first returns the same result. *)
Theorem read_is_deterministic (w w' : World) (i : nat)
    (self : LektricoSensor) :
  platform w !! i = Some self →
  platform w' !! i = Some self →
  data <$> heap w !! coordinator self = data <$> heap w' !! coordinator self →
  snd (step (Read i) w) = Some (native_value self (heap w))
  ∧ snd (step (Read i) w') = snd (step (Read i) w)
  ∧ fst (step (Read i) w) = w
  ∧ snd (step (Read i) (fst (step (Read i) w))) = snd (step (Read i) w).
Proof.
  intros Hw Hw' Hdata. rewrite step_read. simpl. rewrite Hw, Hw'. simpl.
  split; [done|]. split; [|done]. f_equal. unfold native_value.
  destruct (heap w !! coordinator self) as [c|],
           (heap w' !! coordinator self) as [c'|];
    simpl in *; congruence.
Qed.

Lemma read_is_deterministic_witness :
  ∃ w w', async_setup_entry home garage (device "AAA111" charging)
          = Some (Return w)
        ∧ async_setup_entry home garage two_chargers = Some (Return w')
        ∧ snd (step (Read 5) w') = snd (step (Read 5) w)
        ∧ snd (step (Read 5) w)
          = Some (Some (Return
              (VFloat (S754_finite false 4855443348258816 (-47))))).
Proof.
  eexists _, _. split; [reflexivity|]. split; [reflexivity|].
  match goal with
  | |- snd (step (Read ?i) ?w') = snd (step _ ?w) ∧ _ =>
      destruct (read_is_deterministic w w' i
                  {| entity_description :=
                       {| cls := TemperatureSensorEntityDescription;
                          key := "temperature";
                          name := "Temperature";
                          state_class := Some SensorStateClass.MEASUREMENT;
                          device_class :=
                            Some SensorDeviceClass.TEMPERATURE;
                          native_unit_of_measurement := Some TEMP_CELSIUS |};
                     coordinator := 1%positive;
                     _attr_unique_id := "AAA111_temperature";
                     _attr_device_info :=
                       {| DeviceInfo.identifiers := {[ (DOMAIN, "AAA111") ]};
                          DeviceInfo.model := "1P7K AAA111 rev.B";
                          DeviceInfo.name := "Garage charger";
                          DeviceInfo.manufacturer := "Lektrico";
                          DeviceInfo.sw_version := Some "1.44" |} |})
        as (Hread & Hsame & _ & _)
  end.
  - reflexivity.
  - reflexivity.
  - reflexivity.
  - split; [exact Hsame|]. rewrite Hread. reflexivity.
Defined.

(** An iteration returns exactly when every item does, and then it returns
    the items' values in order. *)
Lemma iterate_Return {A : Type} (items : list (Reader A)) h (l : list A) :
  iterate items h = Some (Return l)
  ↔ Forall2 (λ item a, item h = Some (Return a)) items l.
Proof.
  revert l. induction items as [|item items IH]; intros l; simpl.
  - split.
    + intros [= <-]. constructor.
    + intros ->%Forall2_nil_inv_l. done.
  - split.
    + destruct (item h) as [[a|e]|] eqn:Hitem; simpl; [|done..].
      destruct (iterate items h) as [[l'|e]|] eqn:Hrest; simpl; [|done..].
      intros [= <-]. constructor; [done|]. by apply IH.
    + intros (a & l' & Ha & Hl & ->)%Forall2_cons_inv_l.
      rewrite Ha. simpl. apply IH in Hl. rewrite Hl. done.
Qed.

(** What a returning setup did: it found the coordinator and the friendly
    name, built one entity per description of the registry, in order, and
    appended them to the platform's entities. *)
Lemma setup_inv (hass : HomeAssistant) (entry : ConfigEntry) (w w' : World) :
  async_setup_entry hass entry w = Some (Return w') →
  ∃ entries r friendly_name es,
    hass_data hass !! DOMAIN = Some entries
    ∧ entries !! entry_id entry = Some r
    ∧ entry_data entry !! CONF_FRIENDLY_NAME = Some friendly_name
    ∧ Forall2 (λ d self,
                 __init__ d r friendly_name (heap w) = Some (Return self))
              SENSORS es
    ∧ w' = {| heap := heap w; platform := platform w ++ es |}.
Proof.
  unfold async_setup_entry, getitem.
  destruct (hass_data hass !! DOMAIN) as [entries|]; cbn -[SENSORS]; [|done].
  destruct (entries !! entry_id entry) as [r|] eqn:Hr; cbn -[SENSORS];
    [|done].
  unfold async_add_entities.
  destruct (iterate _ (heap w)) as [[es|e]|] eqn:Hit; cbn -[SENSORS];
    [|done..].
  intros [= <-]. apply iterate_Return, Forall2_fmap_l in Hit.
  destruct (entry_data entry !! CONF_FRIENDLY_NAME) as [friendly_name|].
  - exists entries, r, friendly_name, es. repeat split; [done|]. exact Hit.
  - by apply Forall2_cons_inv_l in Hit as (? & ? & ? & _).
Qed.

(** C8: for a configured device (its coordinator is stored under the
    entry's id, holds a snapshot with a firmware version, and the entry
    carries a friendly name) [async_setup_entry] returns, and the callback
    received nine entities: the ones the constructor builds for the
    descriptions of the registry, one for each and in registry order. *)
Theorem setup_registers_the_registry (hass : HomeAssistant)
    (entry : ConfigEntry) (w : World) entries r c friendly_name :
  hass_data hass !! DOMAIN = Some entries →
  entries !! entry_id entry = Some r →
  heap w !! r = Some c →
  fw_version (data c) ≠ Absent →
  entry_data entry !! CONF_FRIENDLY_NAME = Some friendly_name →
  ∃ es,
    async_setup_entry hass entry w
    = Some (Return {| heap := heap w; platform := platform w ++ es |})
    ∧ length es = 9%nat
    ∧ Forall2 (λ d self,
                 __init__ d r friendly_name (heap w) = Some (Return self))
              SENSORS es
    ∧ entity_description <$> es = SENSORS
    ∧ key <$> (entity_description <$> es)
      = ["charger_state"; "charging_time"; "current"; "instant_power";
         "session_energy"; "temperature"; "total_charged_energy";
         "voltage"; "install_current"].
Proof.
  intros Hdom Hentry Hc Hfw Hname.
  assert (∃ fw, getattr (fw_version (data c)) = Return fw)
    as [fw Hgetfw] by (destruct (fw_version (data c)); [done | eauto ..]).
  set (build := λ d : Description, {|
         entity_description := d;
         coordinator := r;
         _attr_unique_id := serial_number c +:+ "_" +:+ key d;
         _attr_device_info := {|
           DeviceInfo.identifiers := {[ (DOMAIN, serial_number c) ]};
           DeviceInfo.model :=
             "1P7K " +:+ serial_number c +:+ " rev." +:+ board_revision c;
           DeviceInfo.name := friendly_name;
           DeviceInfo.manufacturer := "Lektrico";
           DeviceInfo.sw_version := fw |} |}).
  assert (Hbuild : ∀ d, __init__ d r friendly_name (heap w)
                        = Some (Return (build d))).
  { intros d.
    destruct (init_returns d r friendly_name (heap w) c Hc Hfw)
      as (fw' & Hfw' & ->).
    rewrite Hgetfw in Hfw'. by injection Hfw' as <-. }
  assert (Hall : Forall2 (λ d self, __init__ d r friendly_name (heap w)
                                    = Some (Return self))
                         SENSORS (build <$> SENSORS)).
  { apply Forall2_fmap_r, Forall_Forall2_diag, Forall_forall.
    intros d _. apply Hbuild. }
  exists (build <$> SENSORS). split; [|by repeat split].
  unfold async_setup_entry, getitem. rewrite Hdom. cbn -[SENSORS].
  rewrite Hentry. cbn -[SENSORS]. unfold async_add_entities. rewrite Hname.
  assert (Hit : iterate
            ((λ (description : Description) h,
                __init__ description r friendly_name h) <$> SENSORS)
            (heap w) = Some (Return (build <$> SENSORS))).
  { by apply iterate_Return, Forall2_fmap_l. }
  by rewrite Hit.
Qed.

Lemma setup_registers_the_registry_witness :
  ∃ es, async_setup_entry home garage (device "AAA111" charging)
        = Some (Return {| heap := heap (device "AAA111" charging);
                          platform := es |})
      ∧ length es = 9%nat
      ∧ entity_description <$> es = SENSORS.
Proof.
  destruct (setup_registers_the_registry home garage
              (device "AAA111" charging)
              {[ "garage" := 1%positive; "carport" := 2%positive ]}
              1%positive (charger "AAA111" charging) "Garage charger")
    as (es & Hsetup & Hlen & _ & Hdesc & _).
  - reflexivity.
  - reflexivity.
  - reflexivity.
  - discriminate.
  - reflexivity.
  - exists es. split; [exact Hsetup|]. split; [exact Hlen | exact Hdesc].
Defined.

(** C9: whatever refreshes and reads follow, a registered entity keeps the
    unique id and the device info its constructor computed, firmware
    version included: they are those of the coordinator's state at
    construction, not of the snapshots published later. *)
Theorem device_info_is_frozen (d : Description) (r : ref)
    (friendly_name : string) (w0 w : World) c0 (self : LektricoSensor)
    (i : nat) (evs : list event) :
  heap w0 !! r = Some c0 →
  __init__ d r friendly_name (heap w0) = Some (Return self) →
  platform w !! i = Some self →
  ∃ fw,
    getattr (fw_version (data c0)) = Return fw
    ∧ platform (run evs w) !! i = Some {|
        entity_description := d;
        coordinator := r;
        _attr_unique_id := serial_number c0 +:+ "_" +:+ key d;
        _attr_device_info := {|
          DeviceInfo.identifiers := {[ (DOMAIN, serial_number c0) ]};
          DeviceInfo.model :=
            "1P7K " +:+ serial_number c0 +:+ " rev." +:+ board_revision c0;
          DeviceInfo.name := friendly_name;
          DeviceInfo.manufacturer := "Lektrico";
          DeviceInfo.sw_version := fw |} |}.
Proof.
  intros Hc Hinit Hi. rewrite run_platform, Hi.
  pose proof Hinit as (c & Hc' & Hfw & _)%init_inv.
  rewrite Hc in Hc'. injection Hc' as <-.
  destruct (init_returns d r friendly_name (heap w0) c0 Hc Hfw)
    as (fw & Hget & Hret).
  exists fw. split; [exact Hget|]. congruence.
Qed.

Lemma device_info_is_frozen_witness :
  ∃ w, async_setup_entry home garage (device "AAA111" charging)
       = Some (Return w)
     ∧ (DeviceInfo.sw_version ∘ _attr_device_info)
       <$> platform (run [Refresh 1%positive upgraded; Read 5] w) !! 5%nat
       = Some (Some "1.44")
     ∧ fw_version ∘ data
       <$> heap (run [Refresh 1%positive upgraded; Read 5] w) !! 1%positive
       = Some (Holds "1.45").
Proof.
  eexists. split; [reflexivity|]. split; [|reflexivity].
  match goal with
  | |- _ <$> platform (run ?evs ?w) !! ?i = _ =>
      destruct (device_info_is_frozen
                  {| cls := TemperatureSensorEntityDescription;
                     key := "temperature";
                     name := "Temperature";
                     state_class := Some SensorStateClass.MEASUREMENT;
                     device_class := Some SensorDeviceClass.TEMPERATURE;
                     native_unit_of_measurement := Some TEMP_CELSIUS |}
                  1%positive "Garage charger" (device "AAA111" charging) w
                  (charger "AAA111" charging)
                  {| entity_description :=
                       {| cls := TemperatureSensorEntityDescription;
                          key := "temperature";
                          name := "Temperature";
                          state_class := Some SensorStateClass.MEASUREMENT;
                          device_class :=
                            Some SensorDeviceClass.TEMPERATURE;
                          native_unit_of_measurement := Some TEMP_CELSIUS |};
                     coordinator := 1%positive;
                     _attr_unique_id := "AAA111_temperature";
                     _attr_device_info :=
                       {| DeviceInfo.identifiers := {[ (DOMAIN, "AAA111") ]};
                          DeviceInfo.model := "1P7K AAA111 rev.B";
                          DeviceInfo.name := "Garage charger";
                          DeviceInfo.manufacturer := "Lektrico";
                          DeviceInfo.sw_version := Some "1.44" |} |}
                  i evs)
        as (fw & Hget & Hkept)
  end.
  - reflexivity.
  - reflexivity.
  - reflexivity.
  - rewrite Hkept. simpl. injection Hget as <-. reflexivity.
Defined.

(** C10: the base class's [get_native_value] returns [None] on every
    snapshot, so a sensor whose description is of the base class always
    reads as [None]; and the classes for dynamic_current and
    led_max_brightness are the classes of no description of the registry,
    so no entity that [async_setup_entry] registers has one of them. *)
Theorem base_reads_None_and_two_classes_unused :
  (∀ data, get_native_value LektricoSensorEntityDescription data
           = Return VNone)
  ∧ (∀ (self : LektricoSensor) h c,
       cls (entity_description self) = LektricoSensorEntityDescription →
       h !! coordinator self = Some c →
       native_value self h = Some (Return VNone))
  ∧ (DynamicCurrentSensorEntityDescription ∉ cls <$> SENSORS)
  ∧ (LedMaxBrightnessSensorEntityDescription ∉ cls <$> SENSORS)
  ∧ (∀ (hass : HomeAssistant) (entry : ConfigEntry) (w w' : World),
       async_setup_entry hass entry w = Some (Return w') →
       ∃ es, platform w' = platform w ++ es
           ∧ Forall (λ self,
                       cls (entity_description self)
                       ≠ DynamicCurrentSensorEntityDescription
                       ∧ cls (entity_description self)
                         ≠ LedMaxBrightnessSensorEntityDescription) es).
Proof.
  split; [done|]. split; [|split; [|split]].
  - intros self h c Hcls Hc. rewrite (native_value_eq _ _ _ Hc).
    by rewrite Hcls.
  - compute_done.
  - compute_done.
  - intros hass entry w w' Hsetup.
    apply setup_inv in Hsetup
      as (entries & r & fname & es & _ & _ & _ & Hall & ->).
    exists es. split; [done|].
    eapply Forall2_Forall_r; [exact Hall|].
    apply Forall_forall. intros d Hd self (c & _ & _ & -> & _)%init_inv.
    by registry_cases Hd.
Qed.

Lemma base_reads_None_and_two_classes_unused_witness :
  get_native_value LektricoSensorEntityDescription no_temperature
  = Return VNone
  ∧ Forall (λ self, cls (entity_description self)
                    ≠ DynamicCurrentSensorEntityDescription
                    ∧ cls (entity_description self)
                      ≠ LedMaxBrightnessSensorEntityDescription)
           (registered (device "AAA111" charging)).
Proof.
  destruct base_reads_None_and_two_classes_unused
    as (Hbase & _ & _ & _ & Hsetup).
  split; [apply Hbase|].
  destruct (Hsetup home garage (device "AAA111" charging)
              {| heap := heap (device "AAA111" charging);
                 platform := registered (device "AAA111" charging) |})
    as (es & Hes & Hall); [reflexivity|].
  simpl in Hes. by rewrite Hes.
Defined.

(** ** Missing and empty fields *)

(** Case analysis on what the attribute read in the goal holds, down to
    the outcome of the coercion. *)
Ltac field_cases :=
  match goal with
  | |- context [getattr ?a] =>
      let x := fresh "x" in destruct a as [| |x]; simpl;
      try match type of x with
          | number =>
              let z := fresh "z" in
              let f := fresh "f" in
              destruct x as [z|f]; simpl;
              [try destruct (binary_normalize prec emax z 0 false)
              |try destruct f; simpl]
          end
  end.

(** X1: for a description of the registry, [get_native_value] raises
    [AttributeError] exactly when the snapshot lacks the field, and
    [TypeError] exactly when a numeric field is [None]; a charger state
    that is [None] is no error, it reads as the string "None". *)
Theorem extraction_outcome_by_field (d : Description) (data : Snapshot) :
  d ∈ SENSORS →
  (get_native_value (cls d) data = Raise AttributeError
   ↔ field (key d) data = Absent)
  ∧ (get_native_value (cls d) data = Raise TypeError
     ↔ field (key d) data = IsNone ∧ key d ≠ "charger_state")
  ∧ (field (key d) data = IsNone → key d = "charger_state" →
     get_native_value (cls d) data = Return (VStr "None")).
Proof.
  intros Hd.
  registry_cases Hd; unfold field; simpl; field_cases;
    repeat split; try done; try (by intros []).
Qed.

Lemma extraction_outcome_by_field_witness :
  get_native_value TemperatureSensorEntityDescription no_temperature
  = Raise AttributeError.
Proof.
  apply (extraction_outcome_by_field
           {| cls := TemperatureSensorEntityDescription;
              key := "temperature";
              name := "Temperature";
              state_class := Some SensorStateClass.MEASUREMENT;
              device_class := Some SensorDeviceClass.TEMPERATURE;
              native_unit_of_measurement := Some TEMP_CELSIUS |}
           no_temperature).
  - unfold SENSORS. set_solver.
  - reflexivity.
Defined.

(** X2: a class that overrides [get_native_value], registered or not,
    never returns [None] and never raises [KeyError]: when it returns, the
    value has the one type the class annotates. *)
Theorem overrides_never_read_None (c : DescriptionClass) (data : Snapshot) :
  c ≠ LektricoSensorEntityDescription →
  get_native_value c data ≠ Return VNone
  ∧ get_native_value c data ≠ Raise KeyError
  ∧ ∀ v, get_native_value c data = Return v → return_annotation c = [type v].
Proof.
  intros Hc.
  destruct c; try done; simpl; field_cases;
    repeat split; try done; by intros v [= <-].
Qed.

Lemma overrides_never_read_None_witness :
  get_native_value LedMaxBrightnessSensorEntityDescription charging
  ≠ Return VNone.
Proof.
  apply (overrides_never_read_None
           LedMaxBrightnessSensorEntityDescription charging).
  discriminate.
Defined.

(** Truncation drops the fractional part of [m * 2^e] and nothing more. *)
Lemma trunc_spec (m : positive) (e : Z) :
  0 ≤ builtins.trunc m e
  ∧ (0 ≤ e → builtins.trunc m e = Z.pos m * 2 ^ e)
  ∧ (e < 0 →
     builtins.trunc m e * 2 ^ (- e) ≤ Z.pos m
     < (builtins.trunc m e + 1) * 2 ^ (- e)).
Proof.
  unfold builtins.trunc. destruct (Z.leb_spec 0 e) as [He|He].
  - rewrite Z.shiftl_mul_pow2 by done.
    assert (0 < 2 ^ e) by (apply Z.pow_pos_nonneg; lia).
    split; [nia|]. split; [done|]. intros; lia.
  - rewrite Z.shiftr_div_pow2 by lia.
    assert (Hp : 0 < 2 ^ (- e)) by (apply Z.pow_pos_nonneg; lia).
    pose proof (Z.div_mod (Z.pos m) (2 ^ (- e)) ltac:(lia)) as Hdm.
    pose proof (Z.mod_pos_bound (Z.pos m) (2 ^ (- e)) Hp) as Hmod.
    assert (0 ≤ Z.pos m / 2 ^ (- e)) by (apply Z.div_pos; lia).
    split; [done|]. split; [intros; lia|]. intros _. split; nia.
Qed.

(** X3: the three integer sensors of the registry, given a finite float
    [(-1)^s * m * 2^e], return an integer of the same sign whose magnitude
    is the integral part of [m * 2^e]: the fraction is dropped, never
    rounded up. *)
Theorem int_sensors_truncate (d : Description) (data : Snapshot)
    (s : bool) (m : positive) (e : Z) :
  d ∈ SENSORS →
  return_annotation (cls d) = [int_type] →
  field (key d) data = Holds (VFloat (S754_finite s m e)) →
  ∃ r, get_native_value (cls d) data = Return (VInt r)
     ∧ (if s then r ≤ 0 else 0 ≤ r)
     ∧ (0 ≤ e → Z.abs r = Z.pos m * 2 ^ e)
     ∧ (e < 0 → Z.abs r * 2 ^ (- e) ≤ Z.pos m < (Z.abs r + 1) * 2 ^ (- e)).
Proof.
  intros Hd Hann Hf.
  destruct (trunc_spec m e) as (Hpos & Hexact & Hfrac).
  assert (Habs : Z.abs (cond_Zopp s (builtins.trunc m e))
                 = builtins.trunc m e) by (destruct s; simpl; lia).
  exists (cond_Zopp s (builtins.trunc m e)). rewrite Habs.
  split; [|split; [destruct s; simpl; lia | done]].
  registry_cases Hd; try discriminate Hann;
    unfold field in Hf; simpl in Hf |- *;
    match goal with
    | |- context [getattr ?a] =>
        destruct a as [| |[z|f]]; try discriminate Hf
    end;
    by injection Hf as ->.
Qed.

Lemma int_sensors_truncate_witness :
  ∃ r, get_native_value ChargingTimeSensorEntityDescription fractional_time
       = Return (VInt r)
     ∧ Z.abs r * 2 ^ 51 ≤ 8286623314361713 < (Z.abs r + 1) * 2 ^ 51.
Proof.
  destruct (int_sensors_truncate
              {| cls := ChargingTimeSensorEntityDescription;
                 key := "charging_time";
                 name := "Charging time";
                 state_class := None;
                 device_class := None;
                 native_unit_of_measurement := Some TIME_SECONDS |}
              fractional_time false 8286623314361713 (-51))
    as (r & Hr & _ & _ & Hfrac).
  - unfold SENSORS. set_solver.
  - reflexivity.
  - reflexivity.
  - exists r. split; [exact Hr|]. apply Hfrac. lia.
Defined.

(** ** Setup, item by item *)

(** [async_setup_entry] looks the coordinator up and, if it is there, hands
    the generator to the callback. *)
Lemma setup_unfold (hass : HomeAssistant) (entry : ConfigEntry) (w : World) :
  async_setup_entry hass entry w
  = match (entries ← getitem (hass_data hass) DOMAIN;
           getitem entries (entry_id entry)) with
    | Raise e => Some (Raise e)
    | Return r => async_add_entities (new_entities entry r) w
    end.
Proof. reflexivity. Qed.

(** X4: whoever iterates the generator of [async_setup_entry] gets all
    nine entities or none. Without a friendly name the first item raises
    [KeyError], and without a [fw_version] in the coordinator's snapshot
    it raises [AttributeError]; nothing was yielded before. There is no
    state in which some entities are built and a later one fails. *)
Theorem generator_is_all_or_nothing (entry : ConfigEntry) (r : ref)
    (h : gmap ref LektricoDeviceDataUpdateCoordinator) :
  (entry_data entry !! CONF_FRIENDLY_NAME = None →
   iterate (new_entities entry r) h = Some (Raise KeyError)
   ∧ yielded (new_entities entry r) h = [])
  ∧ (∀ friendly_name c,
       entry_data entry !! CONF_FRIENDLY_NAME = Some friendly_name →
       h !! r = Some c →
       fw_version (data c) = Absent →
       iterate (new_entities entry r) h = Some (Raise AttributeError)
       ∧ yielded (new_entities entry r) h = [])
  ∧ (yielded (new_entities entry r) h = []
     ∨ length (yielded (new_entities entry r) h) = 9%nat
       ∧ iterate (new_entities entry r) h
         = Some (Return (yielded (new_entities entry r) h))).
Proof.
  unfold new_entities, SENSORS, getitem, __init__.
  split; [|split].
  - intros Hname. simpl. by rewrite Hname.
  - intros friendly_name c Hname Hr Hfw. simpl.
    by rewrite Hname, Hr; simpl; rewrite Hfw.
  - simpl.
    destruct (entry_data entry !! CONF_FRIENDLY_NAME) as [friendly_name|];
      [|by left].
    destruct (h !! r) as [c|]; simpl; [|by left].
    destruct (fw_version (data c)); simpl; [by left | by right..].
Qed.

Lemma generator_is_all_or_nothing_witness :
  iterate (new_entities garage 1%positive)
          (heap (device "AAA111" no_firmware))
  = Some (Raise AttributeError)
  ∧ yielded (new_entities garage 1%positive)
            (heap (device "AAA111" no_firmware)) = [].
Proof.
  destruct (generator_is_all_or_nothing garage 1%positive
              (heap (device "AAA111" no_firmware))) as (_ & Hfw & _).
  apply (Hfw "Garage charger" (charger "AAA111" no_firmware));
    reflexivity.
Defined.

(** Items that all return make the iteration return. *)
Lemma iterate_fmap_returns {A B : Type} (f : A → Reader B) (xs : list A) h :
  (∀ x, ∃ b, f x h = Some (Return b)) →
  ∃ l, iterate (f <$> xs) h = Some (Return l)
     ∧ Forall2 (λ x b, f x h = Some (Return b)) xs l.
Proof.
  intros Hf. induction xs as [|x xs (l & Hl & Hall)].
  - exists []. by split.
  - destruct (Hf x) as [b Hb]. exists (b :: l).
    split; [|by constructor].
    rewrite fmap_cons. apply iterate_Return.
    constructor; [done|]. by apply iterate_Return.
Qed.

Lemma new_entities_return (entry : ConfigEntry) (r : ref) h c friendly_name :
  entry_data entry !! CONF_FRIENDLY_NAME = Some friendly_name →
  h !! r = Some c →
  fw_version (data c) ≠ Absent →
  ∃ es, iterate (new_entities entry r) h = Some (Return es)
      ∧ Forall2 (λ d self,
                   __init__ d r friendly_name h = Some (Return self))
                SENSORS es.
Proof.
  intros Hname Hr Hfw. unfold new_entities, getitem. rewrite Hname.
  apply (iterate_fmap_returns
           (λ d h, __init__ d r friendly_name h) SENSORS h).
  intros d. destruct (init_returns d r friendly_name h c Hr Hfw)
    as (fw & _ & Hinit). eauto.
Qed.

Lemma setup_returns (hass : HomeAssistant) (entry : ConfigEntry) (w : World)
    entries r c friendly_name :
  hass_data hass !! DOMAIN = Some entries →
  entries !! entry_id entry = Some r →
  heap w !! r = Some c →
  fw_version (data c) ≠ Absent →
  entry_data entry !! CONF_FRIENDLY_NAME = Some friendly_name →
  ∃ es, async_setup_entry hass entry w
        = Some (Return {| heap := heap w; platform := platform w ++ es |})
      ∧ Forall2 (λ d self,
                   __init__ d r friendly_name (heap w) = Some (Return self))
                SENSORS es.
Proof.
  intros Hdom Hentry Hr Hfw Hname.
  destruct (new_entities_return entry r (heap w) c friendly_name
              Hname Hr Hfw) as (es & Hit & Hall).
  exists es. split; [|done].
  rewrite setup_unfold. unfold getitem. rewrite Hdom. simpl.
  rewrite Hentry. unfold async_add_entities. by rewrite Hit.
Qed.

(** X5: [async_setup_entry] raises [KeyError] when [hass.data] holds no
    coordinator for the entry, whatever else is there; and it returns
    exactly for a configured device: the coordinator is stored under the
    domain and the entry's id, its snapshot has a [fw_version] attribute,
    and the entry carries a friendly name. *)
Theorem setup_returns_iff_configured (hass : HomeAssistant)
    (entry : ConfigEntry) (w : World) :
  (hass_data hass !! DOMAIN ≫= (λ entries, entries !! entry_id entry) = None →
   async_setup_entry hass entry w = Some (Raise KeyError))
  ∧ ((∃ w', async_setup_entry hass entry w = Some (Return w'))
     ↔ ∃ entries r c friendly_name,
         hass_data hass !! DOMAIN = Some entries
         ∧ entries !! entry_id entry = Some r
         ∧ heap w !! r = Some c
         ∧ fw_version (data c) ≠ Absent
         ∧ entry_data entry !! CONF_FRIENDLY_NAME = Some friendly_name).
Proof.
  split; [|split].
  - intros Hnone. rewrite setup_unfold. unfold getitem.
    destruct (hass_data hass !! DOMAIN) as [entries|]; simpl in *; [|done].
    by rewrite Hnone.
  - intros [w' Hsetup].
    apply setup_inv in Hsetup
      as (entries & r & friendly_name & es & Hdom & Hentry & Hname & Hall & _).
    unfold SENSORS in Hall.
    apply Forall2_cons_inv_l in Hall as (self & _ & Hinit & _).
    apply init_inv in Hinit as (c & Hr & Hfw & _).
    by exists entries, r, c, friendly_name.
  - intros (entries & r & c & friendly_name & Hdom & Hentry & Hr & Hfw & Hname).
    destruct (setup_returns hass entry w entries r c friendly_name)
      as (es & Hsetup & _); eauto.
Qed.

Lemma setup_returns_iff_configured_witness :
  async_setup_entry home
    {| entry_id := "cellar";
       entry_data := {[ CONF_FRIENDLY_NAME := "Cellar charger" ]} |}
    (device "AAA111" charging)
  = Some (Raise KeyError)
  ∧ ∃ w', async_setup_entry home garage (device "AAA111" charging)
          = Some (Return w').
Proof.
  split.
  - by apply setup_returns_iff_configured.
  - apply setup_returns_iff_configured.
    exists {[ "garage" := 1%positive; "carport" := 2%positive ]},
           1%positive, (charger "AAA111" charging), "Garage charger".
    by repeat split.
Defined.

(** ** Identity across devices *)

(** X6: entities constructed for the same coordinator under the same
    friendly name carry one and the same device info, whatever their
    descriptions; and the device identifiers of two entities are equal
    exactly when their coordinators have the same serial number. *)
Theorem device_info_groups_by_device (d1 d2 : Description) (r1 r2 : ref)
    (name1 name2 : string) h c1 c2 (self1 self2 : LektricoSensor) :
  h !! r1 = Some c1 →
  h !! r2 = Some c2 →
  __init__ d1 r1 name1 h = Some (Return self1) →
  __init__ d2 r2 name2 h = Some (Return self2) →
  (r1 = r2 → name1 = name2 →
   _attr_device_info self1 = _attr_device_info self2)
  ∧ (DeviceInfo.identifiers (_attr_device_info self1)
     = DeviceInfo.identifiers (_attr_device_info self2)
     ↔ serial_number c1 = serial_number c2).
Proof.
  intros Hr1 Hr2 Hi1 Hi2.
  pose proof Hi1 as (c1' & Hc1 & Hfw1 & _)%init_inv.
  pose proof Hi2 as (c2' & Hc2 & Hfw2 & _)%init_inv.
  rewrite Hr1 in Hc1. injection Hc1 as <-.
  rewrite Hr2 in Hc2. injection Hc2 as <-.
  destruct (init_returns d1 r1 name1 h c1 Hr1 Hfw1) as (fw1 & Hg1 & He1).
  destruct (init_returns d2 r2 name2 h c2 Hr2 Hfw2) as (fw2 & Hg2 & He2).
  rewrite Hi1 in He1. injection He1 as ->.
  rewrite Hi2 in He2. injection He2 as ->. simpl.
  split.
  - intros <- <-. rewrite Hr1 in Hr2. injection Hr2 as <-.
    rewrite Hg1 in Hg2. by injection Hg2 as <-.
  - split.
    + intros Hid. apply (inj singleton) in Hid. congruence.
    + by intros ->.
Qed.

Lemma device_info_groups_by_device_witness :
  ∃ self1 self2,
    both_registered !! 0%nat = Some self1
    ∧ both_registered !! 4%nat = Some self2
    ∧ _attr_device_info self1 = _attr_device_info self2.
Proof.
  eexists _, _. split; [reflexivity|]. split; [reflexivity|].
  match goal with
  | |- _attr_device_info ?e1 = _attr_device_info ?e2 =>
      eapply (λ H1 H2 H3 H4,
                proj1 (device_info_groups_by_device
                         (entity_description e1) (entity_description e2)
                         1%positive 1%positive
                         "Garage charger" "Garage charger"
                         (heap two_chargers)
                         (charger "AAA111" charging)
                         (charger "AAA111" charging) e1 e2
                         H1 H2 H3 H4))
  end; reflexivity.
Defined.

(** The first underscore of a unique id ends the serial number when the
    serial number has none. *)
Lemma unique_id_split (s1 s2 k1 k2 : string) :
  no_underscore s1 = true →
  no_underscore s2 = true →
  s1 +:+ "_" +:+ k1 = s2 +:+ "_" +:+ k2 →
  s1 = s2 ∧ k1 = k2.
Proof.
  revert s2. induction s1 as [|a s1 IH]; intros [|b s2]; simpl;
    intros H1 H2 Heq.
  - injection Heq as Heq. simpl in Heq. by subst.
  - injection Heq as <- _. by rewrite Ascii.eqb_refl in H2.
  - injection Heq as -> _. by rewrite Ascii.eqb_refl in H1.
  - injection Heq as <- Heq.
    apply andb_prop in H1 as [_ H1]. apply andb_prop in H2 as [_ H2].
    by destruct (IH s2 H1 H2 Heq) as [-> ->].
Qed.

(** X7: when serial numbers contain no underscore, the unique id
    determines the device and the key: two entities with the same unique
    id were constructed for the same serial number and for descriptions
    with the same key. *)
Theorem unique_id_determines_device_and_key (d1 d2 : Description)
    (r1 r2 : ref) (name1 name2 : string) h c1 c2
    (self1 self2 : LektricoSensor) :
  h !! r1 = Some c1 →
  h !! r2 = Some c2 →
  no_underscore (serial_number c1) = true →
  no_underscore (serial_number c2) = true →
  __init__ d1 r1 name1 h = Some (Return self1) →
  __init__ d2 r2 name2 h = Some (Return self2) →
  _attr_unique_id self1 = _attr_unique_id self2 →
  serial_number c1 = serial_number c2 ∧ key d1 = key d2.
Proof.
  intros Hr1 Hr2 Hs1 Hs2 Hi1 Hi2 Hid.
  apply init_inv in Hi1 as (c1' & Hc1 & _ & _ & _ & Hid1).
  apply init_inv in Hi2 as (c2' & Hc2 & _ & _ & _ & Hid2).
  rewrite Hr1 in Hc1. injection Hc1 as <-.
  rewrite Hr2 in Hc2. injection Hc2 as <-.
  rewrite Hid1, Hid2 in Hid. by apply unique_id_split.
Qed.

Lemma unique_id_determines_device_and_key_witness :
  ∃ self1 self2,
    both_registered !! 2%nat = Some self1
    ∧ both_registered !! 17%nat = Some self2
    ∧ _attr_unique_id self1 ≠ _attr_unique_id self2.
Proof.
  eexists _, _. split; [reflexivity|]. split; [reflexivity|]. intros Hid.
  eapply (unique_id_determines_device_and_key _ _
            1%positive 2%positive "Garage charger" "Carport charger"
            (heap two_chargers)
            (charger "AAA111" charging) (charger "BBB222" charging))
    in Hid as [Hserial _];
    [discriminate Hserial | reflexivity..].
Defined.

Lemma append_assoc (a b c : string) : (a +:+ b) +:+ c = a +:+ b +:+ c.
Proof.
  induction a as [|x a IH]; [done|].
  change (String x ((a +:+ b) +:+ c) = String x (a +:+ b +:+ c)).
  by f_equal.
Qed.

Lemma append_neq (s t : string) : t ≠ "" → s ≠ s +:+ t.
Proof.
  intros Ht. induction s as [|x s IH]; simpl; [done|].
  intros [= Heq]. by apply IH.
Qed.

(** X8: unique ids are not unique across all serial numbers. For every
    serial number [s], the registry's install_current sensor of the
    charger [s] and its current sensor of the charger [s ++ "_install"]
    get the same unique id although the chargers differ. *)
Theorem unique_id_collision (s : string) (r1 r2 : ref)
    (name1 name2 : string) h c1 c2 :
  h !! r1 = Some c1 →
  h !! r2 = Some c2 →
  fw_version (data c1) ≠ Absent →
  fw_version (data c2) ≠ Absent →
  serial_number c1 = s →
  serial_number c2 = s +:+ "_install" →
  ∃ d1 d2 self1 self2,
    d1 ∈ SENSORS ∧ key d1 = "install_current"
    ∧ d2 ∈ SENSORS ∧ key d2 = "current"
    ∧ __init__ d1 r1 name1 h = Some (Return self1)
    ∧ __init__ d2 r2 name2 h = Some (Return self2)
    ∧ serial_number c1 ≠ serial_number c2
    ∧ _attr_unique_id self1 = _attr_unique_id self2.
Proof.
  intros Hr1 Hr2 Hfw1 Hfw2 Hs1 Hs2.
  set (d1 := {| cls := InstallCurrentSensorEntityDescription;
                key := "install_current";
                name := "Install current";
                state_class := None;
                device_class := Some SensorDeviceClass.CURRENT;
                native_unit_of_measurement :=
                  Some ELECTRIC_CURRENT_AMPERE |}).
  set (d2 := {| cls := CurrentSensorEntityDescription;
                key := "current";
                name := "Current";
                state_class := Some SensorStateClass.MEASUREMENT;
                device_class := Some SensorDeviceClass.CURRENT;
                native_unit_of_measurement :=
                  Some ELECTRIC_CURRENT_AMPERE |}).
  destruct (init_returns d1 r1 name1 h c1 Hr1 Hfw1) as (fw1 & _ & Hi1).
  destruct (init_returns d2 r2 name2 h c2 Hr2 Hfw2) as (fw2 & _ & Hi2).
  eexists d1, d2, _, _.
  split; [unfold SENSORS; set_solver|]. split; [done|].
  split; [unfold SENSORS; set_solver|]. split; [done|].
  split; [exact Hi1|]. split; [exact Hi2|]. simpl.
  rewrite Hs1, Hs2. split; [by apply append_neq|].
  by rewrite append_assoc.
Qed.

Lemma unique_id_collision_witness :
  ∃ self1 self2,
    coordinator self1 = 1%positive
    ∧ coordinator self2 = 2%positive
    ∧ _attr_unique_id self1 = "AAA111_install_current"
    ∧ _attr_unique_id self2 = "AAA111_install_current".
Proof.
  destruct (unique_id_collision "AAA111" 1%positive 2%positive
              "Garage charger" "Carport charger"
              {[ 1%positive := charger "AAA111" charging;
                 2%positive := charger "AAA111_install" charging ]}
              (charger "AAA111" charging)
              (charger "AAA111_install" charging))
    as (d1 & d2 & self1 & self2 & _ & Hk1 & _ & Hk2 & Hi1 & Hi2 & _ & Hid);
    [reflexivity | reflexivity | discriminate | discriminate
    | reflexivity | reflexivity |].
  apply init_inv in Hi1 as (c1 & [= <-] & _ & _ & Hc1 & Hid1).
  apply init_inv in Hi2 as (c2 & [= <-] & _ & _ & Hc2 & Hid2).
  exists self1, self2. rewrite <- Hid, Hid1, Hk1. by repeat split.
Defined.

(** ** Reads after refreshes *)

(** A description of the registry returns on every fully populated
    snapshot. *)
Lemma populated_returns (d : Description) (data : Snapshot) :
  d ∈ SENSORS →
  fully_populated data = true →
  ∃ v, get_native_value (cls d) data = Return v.
Proof.
  intros Hd Hp. registry_cases Hd; simpl; populated Hp; simpl; eauto.
Qed.

(** X9: a read is never stale. Once a coordinator on the heap has
    published a snapshot, a registered sensor of that coordinator reads
    what [get_native_value] extracts from the new snapshot, and the
    sensors of every other coordinator read what they read before. *)
Theorem read_follows_refresh (w : World) (r : ref) (s : Snapshot)
    (i : nat) (self : LektricoSensor) c :
  platform w !! i = Some self →
  heap w !! r = Some c →
  (coordinator self = r →
   snd (step (Read i) (refresh r s w))
   = Some (Some (get_native_value (cls (entity_description self)) s)))
  ∧ (coordinator self ≠ r →
     snd (step (Read i) (refresh r s w)) = snd (step (Read i) w)).
Proof.
  intros Hi Hr. simpl. rewrite Hi. simpl. unfold native_value. split.
  - intros ->. by rewrite lookup_alter_eq, Hr.
  - intros Hne. by rewrite lookup_alter_ne.
Qed.

Lemma read_follows_refresh_witness :
  ∃ w self,
    async_setup_entry home garage two_chargers = Some (Return w)
    ∧ platform w !! 5%nat = Some self
    ∧ snd (step (Read 5) (refresh 1%positive upgraded w))
      = Some (Some (get_native_value (cls (entity_description self))
                      upgraded))
    ∧ snd (step (Read 5) (refresh 2%positive upgraded w))
      = snd (step (Read 5) w).
Proof.
  eexists _, _. split; [reflexivity|]. split; [reflexivity|].
  match goal with
  | |- snd (step (Read ?i) (refresh _ ?s ?w))
       = Some (Some (get_native_value (cls (entity_description ?self)) _))
       ∧ _ =>
      destruct (read_follows_refresh w 1%positive s i self
                  (charger "AAA111" charging) eq_refl eq_refl)
        as [Hsame _];
      destruct (read_follows_refresh w 2%positive s i self
                  (charger "BBB222" charging) eq_refl eq_refl)
        as [_ Hother]
  end.
  split; [by apply Hsame | by apply Hother].
Defined.

(** X10: in the registry a unit of measurement goes with numbers only.
    The one description without a unit is the one annotated [str]; a
    description with a unit, a state class or a device class returns an
    [int] or a [float] whenever it returns. *)
Theorem units_only_on_numbers (d : Description) (data : Snapshot) v :
  d ∈ SENSORS →
  get_native_value (cls d) data = Return v →
  (native_unit_of_measurement d = None
   ↔ return_annotation (cls d) = [str_type])
  ∧ (is_Some (native_unit_of_measurement d)
     ∨ is_Some (state_class d)
     ∨ is_Some (device_class d) →
     is_number v = true).
Proof.
  intros Hd.
  registry_cases Hd; simpl; field_cases; intros [= <-];
    (split; [by split|]); try done;
    by intros [[? [=]]|[[? [=]]|[? [=]]]].
Qed.

Lemma units_only_on_numbers_witness :
  ∃ v, get_native_value VoltageSensorEntityDescription charging = Return v
     ∧ is_number v = true.
Proof.
  eexists. split; [reflexivity|].
  eapply (units_only_on_numbers
            {| cls := VoltageSensorEntityDescription;
               key := "voltage";
               name := "Voltage";
               state_class := None;
               device_class := Some SensorDeviceClass.VOLTAGE;
               native_unit_of_measurement := Some ELECTRIC_POTENTIAL_VOLT |}
            charging).
  - unfold SENSORS. set_solver.
  - reflexivity.
  - left. by eexists.
Defined.

(** What [async_setup_entry] added: entities constructed for the entry's
    coordinator, each from a description of the registry. *)
Lemma setup_added (hass : HomeAssistant) (entry : ConfigEntry)
    (w w' : World) :
  async_setup_entry hass entry w = Some (Return w') →
  ∃ r es,
    hass_data hass !! DOMAIN ≫= (λ entries, entries !! entry_id entry)
    = Some r
    ∧ heap w' = heap w
    ∧ platform w' = platform w ++ es
    ∧ Forall (λ self,
                ∃ d friendly_name,
                  d ∈ SENSORS
                  ∧ __init__ d r friendly_name (heap w)
                    = Some (Return self)) es.
Proof.
  intros (entries & r & friendly_name & es & Hdom & Hentry & _ & Hall & ->)
    %setup_inv.
  exists r, es. rewrite Hdom. simpl. repeat split; [done|].
  eapply Forall2_Forall_r; [exact Hall|].
  apply Forall_forall. intros d Hd self Hinit. by exists d, friendly_name.
Qed.

(** X11: the sensors that a setup registered all have a value as soon as
    their coordinator publishes a fully populated snapshot, whatever the
    snapshot at setup lacked: each of them reads a value of the type its
    class annotates. *)
Theorem registered_sensors_read_after_refresh (hass : HomeAssistant)
    (entry : ConfigEntry) (w w' : World) (r : ref) (s : Snapshot)
    (i : nat) (self : LektricoSensor) :
  async_setup_entry hass entry w = Some (Return w') →
  hass_data hass !! DOMAIN ≫= (λ entries, entries !! entry_id entry)
  = Some r →
  fully_populated s = true →
  (length (platform w) ≤ i)%nat →
  platform w' !! i = Some self →
  ∃ v, snd (step (Read i) (refresh r s w')) = Some (Some (Return v))
     ∧ return_annotation (cls (entity_description self)) = [type v].
Proof.
  intros (r' & es & Hr' & Hheap & Hplat & Hall)%setup_added Hr Hs Hi Hself.
  rewrite Hr in Hr'. injection Hr' as <-.
  assert (Hin : self ∈ es).
  { pose proof Hself as Hes. rewrite Hplat, lookup_app_r in Hes by done.
    by apply list_elem_of_lookup_2 in Hes. }
  rewrite Forall_forall in Hall.
  destruct (Hall self Hin) as (d & friendly_name & Hd & Hinit).
  apply init_inv in Hinit as (c & Hc & _ & Hdesc & Hcoord & _).
  destruct (populated_returns d s Hd Hs) as [v Hv].
  exists v. split.
  - simpl. rewrite Hself. simpl. unfold native_value.
    rewrite Hcoord, Hheap, lookup_alter_eq, Hc. simpl.
    by rewrite Hdesc, Hv.
  - rewrite Hdesc. by apply (get_native_value_annotated d s).
Qed.

Lemma registered_sensors_read_after_refresh_witness :
  ∃ w self,
    async_setup_entry home garage (device "AAA111" no_temperature)
    = Some (Return w)
    ∧ platform w !! 5%nat = Some self
    ∧ native_value self (heap w) = Some (Raise AttributeError)
    ∧ ∃ v, snd (step (Read 5) (refresh 1%positive charging w))
           = Some (Some (Return v))
         ∧ type v = float_type.
Proof.
  eexists _, _. split; [reflexivity|]. split; [reflexivity|].
  split; [reflexivity|].
  match goal with
  | |- ∃ v, snd (step (Read ?i) (refresh ?r ?s ?w)) = _ ∧ _ =>
      destruct (registered_sensors_read_after_refresh home garage
                  (device "AAA111" no_temperature) w r s i
                  {| entity_description :=
                       {| cls := TemperatureSensorEntityDescription;
                          key := "temperature";
                          name := "Temperature";
                          state_class := Some SensorStateClass.MEASUREMENT;
                          device_class :=
                            Some SensorDeviceClass.TEMPERATURE;
                          native_unit_of_measurement := Some TEMP_CELSIUS |};
                     coordinator := 1%positive;
                     _attr_unique_id := "AAA111_temperature";
                     _attr_device_info :=
                       {| DeviceInfo.identifiers := {[ (DOMAIN, "AAA111") ]};
                          DeviceInfo.model := "1P7K AAA111 rev.B";
                          DeviceInfo.name := "Garage charger";
                          DeviceInfo.manufacturer := "Lektrico";
                          DeviceInfo.sw_version := Some "1.44" |} |})
        as (v & Hv & Ht)
  end.
  - reflexivity.
  - reflexivity.
  - reflexivity.
  - simpl. lia.
  - reflexivity.
  - exists v. split; [exact Hv|]. simpl in Ht. congruence.
Defined.

(** ** Worlds stay consistent *)

Lemma agrees_same_heap (w w' : World) (self : LektricoSensor) :
  heap w' = heap w → agrees w self → agrees w' self.
Proof. intros Hheap (c & Hc & Hid). exists c. by rewrite Hheap. Qed.

(** A refresh keeps the serial numbers, so entities still agree. *)
Lemma agrees_refresh (w : World) (r : ref) (s : Snapshot)
    (self : LektricoSensor) :
  agrees w self → agrees (refresh r s w) self.
Proof.
  intros (c & Hc & Hid & Hident). unfold agrees, refresh. simpl.
  destruct (decide (r = coordinator self)) as [->|Hne].
  - rewrite lookup_alter_eq, Hc. simpl. eauto.
  - rewrite lookup_alter_ne by done. eauto.
Qed.

Lemma consistent_step (ev : event) (w : World) :
  consistent w → consistent (fst (step ev w)).
Proof.
  intros Hw. destruct ev as [r s|i]; [|by rewrite step_read].
  unfold consistent in *. simpl.
  eapply Forall_impl; [exact Hw|]. intros self. apply agrees_refresh.
Qed.

Lemma consistent_run (evs : list event) (w : World) :
  consistent w → consistent (run evs w).
Proof.
  revert w. induction evs as [|ev evs IH]; intros w Hw; simpl; [done|].
  by apply IH, consistent_step.
Qed.

(** An entity agrees with the world it was constructed in. *)
Lemma init_agrees (d : Description) (r : ref) (friendly_name : string)
    (w : World) (self : LektricoSensor) :
  __init__ d r friendly_name (heap w) = Some (Return self) →
  agrees w self.
Proof.
  intros Hinit.
  pose proof Hinit as (c & Hc & Hfw & _)%init_inv.
  destruct (init_returns d r friendly_name (heap w) c Hc Hfw)
    as (fw & _ & Hret).
  rewrite Hinit in Hret. injection Hret as ->. by exists c.
Qed.

(** X12: a world in which every registered entity refers to a coordinator
    on the heap, and the entity's unique id and device identifiers name
    that coordinator's serial number, stays such a world: through a setup
    that returns, which adds entities that name their coordinator, and
    through any refreshes and reads, which leave serial numbers alone. *)
Theorem consistency_is_kept (hass : HomeAssistant) (entry : ConfigEntry)
    (w : World) (evs : list event) :
  consistent w →
  (∀ w', async_setup_entry hass entry w = Some (Return w') → consistent w')
  ∧ consistent (run evs w).
Proof.
  intros Hw. split.
  - intros w' (r & es & _ & Hheap & Hplat & Hall)%setup_added.
    unfold consistent. rewrite Hplat. apply Forall_app. split.
    + eapply Forall_impl; [exact Hw|]. intros self.
      by apply agrees_same_heap.
    + eapply Forall_impl; [exact Hall|].
      intros self (d & friendly_name & _ & Hinit).
      by eapply agrees_same_heap, init_agrees.
  - by apply consistent_run.
Qed.

Lemma consistency_is_kept_witness :
  ∃ w w',
    async_setup_entry home garage two_chargers = Some (Return w)
    ∧ length (platform w) = 9%nat
    ∧ async_setup_entry home carport w = Some (Return w')
    ∧ length (platform w') = 18%nat
    ∧ consistent w'
    ∧ consistent (run [Refresh 1%positive upgraded; Read 3] w).
Proof.
  eexists _, _. split; [reflexivity|]. split; [reflexivity|].
  split; [reflexivity|]. split; [reflexivity|].
  match goal with
  | |- consistent ?w' ∧ consistent (run ?evs ?w) =>
      destruct (consistency_is_kept home carport w evs) as [Hsetup Hrun]
  end.
  - repeat constructor;
      (eexists; split; [reflexivity|]; split; reflexivity).
  - split; [by apply Hsetup | exact Hrun].
Defined.
